(** * Task2_database.py: the nested-transaction store [DatabaseSimulator]

    A shallow embedding of the class [DatabaseSimulator] and the properties
    of its six methods.  Python dictionaries are stdpp [gmap]s (dictionary
    equality in Python ignores insertion order, as [gmap] equality does), the
    list [_cache] of pending dictionaries is a [list] whose head is index 0
    (the oldest transaction), and every method is a computation in a small
    state-and-exception monad over the two attributes of the object. *)

From Stdlib Require Import ZArith.
From stdpp Require Import gmap strings list fin_maps.

Open Scope Z_scope.
Open Scope string_scope.
Open Scope list_scope.

(** ** Python values *)

(** The values the store holds are arbitrary Python objects.  The methods
    only ever inspect a value through its truth value ([if _cache_value:]),
    so the embedding keeps the scalar types that the tests of the module use
    ([str], [int]) together with [bool] and [None]. *)
Inductive pyval : Type :=
  | PNone
  | PBool (b : bool)
  | PInt (z : Z)
  | PStr (s : string).

(** Python's [bool(v)]: [None], [False], [0] and [''] are false. *)
Definition truthy (v : pyval) : bool :=
  match v with
  | PNone => false
  | PBool b => b
  | PInt z => negb (Z.eqb z 0)
  | PStr s => negb (String.eqb s "")
  end.

(** Keys are strings, as in every call of the module. *)
Abbreviation pydict := (gmap string pyval).

(** [d.get(key, None)] *)
Definition dict_get (d : pydict) (key : string) : pyval :=
  default PNone (d !! key).

(** [d.update(other)]: every entry of [other] is written into [d]. *)
Definition dict_update (d other : pydict) : pydict := other ∪ d.

(** ** The object and its effects *)

(** [self.db] and [self._cache].  The dictionaries of [_cache] are created
    by [begin], one fresh object per call, so no two positions of the list
    share a dictionary and the list is modelled by value. *)
Record DatabaseSimulator : Type := mkDB {
  db : pydict;
  _cache : list pydict
}.

(** [DatabaseSimulator()] *)
Definition __init__ : DatabaseSimulator := mkDB ∅ [].

Inductive exn : Type :=
  | Exception (msg : string).

Inductive outcome (A : Type) : Type :=
  | Return (a : A)
  | Raise (e : exn).
Arguments Return {A} a.
Arguments Raise {A} e.

(** A method call: from the object before the call to its outcome and the
    object after it. *)
Definition M (A : Type) : Type :=
  DatabaseSimulator -> outcome A * DatabaseSimulator.

Definition ret {A} (a : A) : M A := fun self => (Return a, self).

Definition raise {A} (e : exn) : M A := fun self => (Raise e, self).

Definition bind {A B} (m : M A) (f : A -> M B) : M B :=
  fun self =>
    match m self with
    | (Return a, self') => f a self'
    | (Raise e, self') => (Raise e, self')
    end.

Definition read_db : M pydict := fun self => (Return (db self), self).

Definition read_cache : M (list pydict) :=
  fun self => (Return (_cache self), self).

Definition write_db (d : pydict) : M unit :=
  fun self => (Return tt, mkDB d (_cache self)).

Definition write_cache (c : list pydict) : M unit :=
  fun self => (Return tt, mkDB (db self) c).

Notation "'let!' x ':=' m 'in' k" := (bind m (fun x => k))
  (at level 10, x name, m at level 100, k at level 200).
Notation "m 'then!' k" := (bind m (fun _ => k))
  (at level 90, right associativity).

(** [bool(l)] of a list *)
Definition nonempty {A} (l : list A) : bool :=
  match l with
  | [] => false
  | _ :: _ => true
  end.

(** ** The methods *)

(** [self._cache.append({})] *)
Definition begin : M unit :=
  let! c := read_cache in
  write_cache (c ++ [∅]).

(** [return len(self.db)] *)
Definition count : M nat :=
  let! d := read_db in
  ret (size d).

(** The loop of [get], over the dictionaries in the order the loop visits
    them: the first truthy [_cache_db.get(key, None)] is returned from the
    method, and [None] here stands for the loop running to its end. *)
Fixpoint get_loop (key : string) (visit : list pydict) : option pyval :=
  match visit with
  | [] => None
  | _cache_db :: rest =>
      let _cache_value := dict_get _cache_db key in
      if truthy _cache_value then Some _cache_value
      else get_loop key rest
  end.

Definition get (key : string) : M pyval :=
  let! c := read_cache in
  match (if nonempty c then get_loop key (reverse c) else None) with
  | Some _cache_value => ret _cache_value
  | None =>
      let! d := read_db in
      ret (dict_get d key)
  end.

(** [self._cache[-1][key] = value] after the guard: the dictionary at the
    last index is updated in place. *)
Definition set (key : string) (value : pyval) : M unit :=
  let! c := read_cache in
  if negb (nonempty c) then raise (Exception "No active transaction")
  else write_cache (alter (insert key value) (pred (length c)) c).

(** The loop of [commit]: [self.db.update(cache)] for each dictionary, from
    index 0 on. *)
Fixpoint commit_loop (d : pydict) (caches : list pydict) : pydict :=
  match caches with
  | [] => d
  | cache :: rest => commit_loop (dict_update d cache) rest
  end.

Definition commit : M unit :=
  let! c := read_cache in
  if negb (nonempty c) then raise (Exception "No active transaction")
  else
    let! d := read_db in
    write_db (commit_loop d c) then!
    write_cache [].

(** [self._cache.pop()] after the guard: the last element is removed. *)
Definition rollback : M unit :=
  let! c := read_cache in
  if negb (nonempty c) then raise (Exception "No active transaction")
  else write_cache (take (pred (length c)) c).


(** ** What a read should see *)

(** The reading rule of the docstring of [get]: is the key in the pending
    dictionaries, from the newest to the oldest; is it in [db]; [None]
    otherwise.  [first_containing] takes the dictionaries in the order they
    are consulted. *)
Fixpoint first_containing (key : string) (visit : list pydict)
  : option pyval :=
  match visit with
  | [] => None
  | d :: rest =>
      match d !! key with
      | Some v => Some v
      | None => first_containing key rest
      end
  end.

Definition innermost (key : string) (c : list pydict) : option pyval :=
  first_containing key (reverse c).

Definition get_spec (key : string) (self : DatabaseSimulator) : pyval :=
  match innermost key (_cache self) with
  | Some v => v
  | None => dict_get (db self) key
  end.

(** A dictionary without its entries of falsy value. *)
Definition strip_falsy (d : pydict) : pydict :=
  filter (fun kv : string * pyval => truthy kv.2 = true) d.

(** ** Sequences of [begin] and [set] calls *)

Inductive op : Type :=
  | OpBegin
  | OpSet (key : string) (value : pyval).

Definition call (o : op) : M unit :=
  match o with
  | OpBegin => begin
  | OpSet key value => set key value
  end.

Fixpoint calls (os : list op) : M unit :=
  match os with
  | [] => ret tt
  | o :: rest => call o then! calls rest
  end.

(** ** Any method call *)

(** The six methods as one call.  A method without a [return] statement
    returns [None], and [count] returns an [int]. *)
Inductive method : Type :=
  | MBegin
  | MCount
  | MGet (key : string)
  | MSet (key : string) (value : pyval)
  | MCommit
  | MRollback.

Definition invoke (m : method) : M pyval :=
  match m with
  | MBegin => begin then! ret PNone
  | MCount => let! n := count in ret (PInt (Z.of_nat n))
  | MGet key => get key
  | MSet key value => set key value then! ret PNone
  | MCommit => commit then! ret PNone
  | MRollback => rollback then! ret PNone
  end.

(** Calls made one after the other; an exception ends the sequence. *)
Fixpoint invokes (ms : list method) : M unit :=
  match ms with
  | [] => ret tt
  | m :: rest => invoke m then! invokes rest
  end.

Definition is_commit (m : method) : bool :=
  match m with
  | MCommit => true
  | _ => false
  end.

(** The calls that neither open nor close a transaction. *)
Definition is_read_or_set (m : method) : bool :=
  match m with
  | MCount | MGet _ | MSet _ _ => true
  | _ => false
  end.

(** The same call [n] times. *)
Fixpoint times (n : nat) (m : M unit) : M unit :=
  match n with
  | O => ret tt
  | S n' => m then! times n' m
  end.

(** ** The test function *)

(** Python's [==] on the values: [bool] is a subtype of [int], so [True]
    equals [1] and [False] equals [0]; values of different kinds are
    unequal otherwise. *)
Definition py_eq (x y : pyval) : bool :=
  match x, y with
  | PNone, PNone => true
  | PBool a, PBool b => Bool.eqb a b
  | PInt a, PInt b => Z.eqb a b
  | PStr a, PStr b => String.eqb a b
  | PBool a, PInt b => Z.eqb (Z.b2z a) b
  | PInt a, PBool b => Z.eqb a (Z.b2z b)
  | _, _ => false
  end.

(** [d1 == d2] on dictionaries: the same number of entries, and every key
    of [d1] is in [d2] with an equal value. *)
Definition dict_eq (d1 d2 : pydict) : bool :=
  Nat.eqb (size d1) (size d2) &&
  forallb (fun kv : string * pyval =>
             match d2 !! kv.1 with
             | Some w => py_eq kv.2 w
             | None => false
             end)
          (map_to_list d1).

(** [l1 == l2] on lists of dictionaries. *)
Fixpoint list_eq (l1 l2 : list pydict) : bool :=
  match l1, l2 with
  | [], [] => true
  | d1 :: l1', d2 :: l2' => dict_eq d1 d2 && list_eq l1' l2'
  | _, _ => false
  end.

(** What can end [test_DatabaseSimulator] early: a failed [assert], or an
    exception of a method, which the function does not catch. *)
Inductive test_exn : Type :=
  | AssertionError
  | Uncaught (e : exn).

(** A statement of the test, on the object [db1]. *)
Definition stmt : Type := DatabaseSimulator -> test_exn + DatabaseSimulator.

(** [db1.m(...)] as a statement. *)
Definition do_call {A} (m : M A) : stmt :=
  fun db1 =>
    match m db1 with
    | (Return _, db1') => inr db1'
    | (Raise e, _) => inl (Uncaught e)
    end.

(** [assert ok(db1.m(...))] *)
Definition assert_call {A} (m : M A) (ok : A -> bool) : stmt :=
  fun db1 =>
    match m db1 with
    | (Return a, db1') => if ok a then inr db1' else inl AssertionError
    | (Raise e, _) => inl (Uncaught e)
    end.

(** [assert db1._cache == expected] *)
Definition assert_cache (expected : list pydict) : stmt :=
  assert_call read_cache (fun c => list_eq c expected).

(** [assert db1.db == expected] *)
Definition assert_db (expected : pydict) : stmt :=
  assert_call read_db (fun d => dict_eq d expected).

Fixpoint run_stmts (body : list stmt) (db1 : DatabaseSimulator)
  : test_exn + DatabaseSimulator :=
  match body with
  | [] => inr db1
  | s :: rest =>
      match s db1 with
      | inr db1' => run_stmts rest db1'
      | inl e => inl e
      end
  end.

(** The body of [test_DatabaseSimulator], statement by statement; the
    result is the object [db1] at the end of the function, or what ended
    it early. *)
Definition test_DatabaseSimulator : test_exn + DatabaseSimulator :=
  run_stmts
    [ assert_cache [];
      do_call begin;
      assert_cache [∅];
      do_call (set "a" (PStr "5"));
      assert_cache [ {[ "a" := PStr "5" ]} ];
      do_call begin;
      do_call (set "b" (PInt 19));
      assert_cache [ {[ "a" := PStr "5" ]}; {[ "b" := PInt 19 ]} ];
      do_call begin;
      assert_cache [ {[ "a" := PStr "5" ]}; {[ "b" := PInt 19 ]}; ∅ ];
      do_call commit;
      assert_db {[ "a" := PStr "5"; "b" := PInt 19 ]};
      assert_cache [];
      do_call begin;
      assert_db {[ "a" := PStr "5"; "b" := PInt 19 ]};
      assert_cache [∅];
      do_call (write_cache [ {[ "c" := PInt 5; "e" := PInt 1 ]};
                             {[ "d" := PInt 6 ]}; {[ "e" := PInt 7 ]} ]);
      do_call (set "e" (PInt 99));
      assert_cache [ {[ "c" := PInt 5; "e" := PInt 1 ]};
                     {[ "d" := PInt 6 ]}; {[ "e" := PInt 99 ]} ];
      assert_call count (fun n => Nat.eqb n 2);
      do_call commit;
      assert_db {[ "a" := PStr "5"; "b" := PInt 19; "c" := PInt 5;
                   "d" := PInt 6; "e" := PInt 99 ]};
      assert_cache [];
      do_call begin;
      assert_call (get "a") (fun v => py_eq v (PStr "5"));
      do_call (set "a" (PInt 100));
      assert_call (get "a") (fun v => py_eq v (PInt 100));
      do_call begin;
      do_call (set "a" (PInt 101));
      assert_cache [ {[ "a" := PInt 100 ]}; {[ "a" := PInt 101 ]} ];
      assert_call (get "a") (fun v => py_eq v (PInt 101));
      do_call commit;
      assert_cache [];
      assert_call (get "a") (fun v => py_eq v (PInt 101));
      assert_db {[ "a" := PInt 101; "b" := PInt 19; "c" := PInt 5;
                   "d" := PInt 6; "e" := PInt 99 ]};
      do_call begin;
      do_call (set "d" (PStr "yep"));
      do_call begin;
      do_call (set "d" (PStr "nope"));
      assert_cache [ {[ "d" := PStr "yep" ]}; {[ "d" := PStr "nope" ]} ];
      do_call rollback;
      assert_cache [ {[ "d" := PStr "yep" ]} ] ]
    __init__.

(** ** Equations of the methods *)

(** The first scenario of [test_DatabaseSimulator]. *)
Example test_begin_set_commit :
  (begin then! set "a" (PStr "5") then! begin then! set "b" (PInt 19) then!
   begin then! commit then! count) __init__
  = (Return 2%nat, mkDB {[ "a" := PStr "5"; "b" := PInt 19 ]} []).
Proof. vm_compute. reflexivity. Qed.

Lemma record_eta (self : DatabaseSimulator) :
  mkDB (db self) (_cache self) = self.
Proof. destruct self; reflexivity. Qed.

Lemma nonempty_false {A} (l : list A) : nonempty l = false <-> l = [].
Proof. destruct l; simpl; split; congruence. Qed.

Lemma nonempty_true {A} (l : list A) : nonempty l = true <-> l <> [].
Proof. destruct l; simpl; split; congruence. Qed.

Lemma nonempty_snoc {A} (l : list A) (x : A) : nonempty (l ++ [x]) = true.
Proof. destruct l; reflexivity. Qed.

(** A list that is not empty has a last element. *)
Lemma snoc_of_nonempty {A} (l : list A) :
  l <> [] -> exists older last, l = older ++ [last].
Proof.
  induction l as [|x l IH] using rev_ind; [congruence|].
  intros _. exists l, x. reflexivity.
Qed.

Lemma pred_length_snoc {A} (l : list A) (x : A) :
  pred (length (l ++ [x])) = length l.
Proof. rewrite length_app. simpl. lia. Qed.

Lemma begin_eq (self : DatabaseSimulator) :
  begin self = (Return tt, mkDB (db self) (_cache self ++ [∅])).
Proof. reflexivity. Qed.

Lemma count_eq (self : DatabaseSimulator) :
  count self = (Return (size (db self)), self).
Proof. reflexivity. Qed.

Lemma get_eq (key : string) (self : DatabaseSimulator) :
  get key self =
  (Return (default (dict_get (db self) key)
                   (get_loop key (reverse (_cache self)))), self).
Proof.
  unfold get, bind, read_cache. simpl.
  destruct (_cache self) as [|d c]; [reflexivity|].
  simpl nonempty. cbv iota.
  destruct (get_loop key (reverse (d :: c))); reflexivity.
Qed.

Lemma set_snoc (key : string) (value : pyval) (d : pydict)
    (older : list pydict) (last : pydict) :
  set key value (mkDB d (older ++ [last]))
  = (Return tt, mkDB d (older ++ [<[key:=value]> last])).
Proof.
  unfold set, bind, read_cache, write_cache. simpl.
  rewrite nonempty_snoc. simpl.
  rewrite pred_length_snoc.
  replace (length older) with (length older + 0)%nat by lia.
  rewrite alter_app_r. reflexivity.
Qed.

Lemma set_empty (key : string) (value : pyval) (d : pydict) :
  set key value (mkDB d [])
  = (Raise (Exception "No active transaction"), mkDB d []).
Proof. reflexivity. Qed.

Lemma rollback_snoc (d : pydict) (older : list pydict) (last : pydict) :
  rollback (mkDB d (older ++ [last])) = (Return tt, mkDB d older).
Proof.
  unfold rollback, bind, read_cache, write_cache. simpl.
  rewrite nonempty_snoc. simpl.
  rewrite pred_length_snoc, take_app_length. reflexivity.
Qed.

Lemma commit_nonempty (self : DatabaseSimulator) :
  _cache self <> [] ->
  commit self
  = (Return tt, mkDB (commit_loop (db self) (_cache self)) []).
Proof.
  intros Hne. apply nonempty_true in Hne.
  unfold commit, bind, read_cache, read_db, write_db, write_cache. simpl.
  rewrite Hne. reflexivity.
Qed.

Lemma commit_loop_snoc (d : pydict) (older : list pydict) (last : pydict) :
  commit_loop d (older ++ [last]) = dict_update (commit_loop d older) last.
Proof.
  revert d. induction older as [|c older IH]; intros d; simpl; [reflexivity|].
  apply IH.
Qed.

(** After the loop of [commit], a key holds the value of the newest pending
    dictionary that has it, and its old value in [db] when none has. *)
Lemma commit_loop_lookup (d : pydict) (c : list pydict) (k : string) :
  commit_loop d c !! k
  = match innermost k c with
    | Some v => Some v
    | None => d !! k
    end.
Proof.
  unfold innermost.
  induction c as [|last older IH] using rev_ind; [reflexivity|].
  rewrite commit_loop_snoc, reverse_snoc. simpl.
  unfold dict_update. rewrite lookup_union.
  destruct (last !! k) as [v|] eqn:Hk.
  - destruct (commit_loop d older !! k); reflexivity.
  - rewrite IH.
    destruct (first_containing k (reverse older)); [reflexivity|].
    destruct (d !! k); reflexivity.
Qed.

(** ** The loop of [get] *)

Lemma dict_get_absent (d : pydict) (key : string) :
  d !! key = None -> dict_get d key = PNone.
Proof. unfold dict_get. intros ->. reflexivity. Qed.

Lemma dict_get_present (d : pydict) (key : string) (v : pyval) :
  d !! key = Some v -> dict_get d key = v.
Proof. unfold dict_get. intros ->. reflexivity. Qed.

(** Dictionaries without the key are passed over. *)
Lemma get_loop_absent (key : string) (visit : list pydict) :
  Forall (fun d => d !! key = None) visit -> get_loop key visit = None.
Proof.
  induction 1 as [|d visit Hd _ IH]; simpl; [reflexivity|].
  rewrite (dict_get_absent _ _ Hd). simpl. exact IH.
Qed.

(** Where every value stored under the key is truthy, the loop finds the
    first dictionary that has the key. *)
Lemma get_loop_truthy (key : string) (visit : list pydict) :
  Forall (fun d => forall v, d !! key = Some v -> truthy v = true) visit ->
  get_loop key visit = first_containing key visit.
Proof.
  induction 1 as [|d visit Hd _ IH]; simpl; [reflexivity|].
  destruct (d !! key) as [v|] eqn:Hk.
  - rewrite (dict_get_present _ _ _ Hk), (Hd v eq_refl). reflexivity.
  - rewrite (dict_get_absent _ _ Hk). simpl. exact IH.
Qed.

(** A dictionary that holds a falsy value is passed over as well. *)
Lemma get_loop_skip (key : string) (d : pydict) (rest : list pydict) :
  truthy (dict_get d key) = false ->
  get_loop key (d :: rest) = get_loop key rest.
Proof. simpl. intros ->. reflexivity. Qed.

Lemma get_loop_app (key : string) (newer visit : list pydict) :
  get_loop key (newer ++ visit)
  = match get_loop key newer with
    | Some v => Some v
    | None => get_loop key visit
    end.
Proof.
  induction newer as [|d newer IH]; simpl; [reflexivity|].
  destruct (truthy (dict_get d key)); [reflexivity|exact IH].
Qed.

(** On an object whose pending values are all truthy, [get] follows the
    reading rule. *)
Lemma get_truthy (key : string) (self : DatabaseSimulator) :
  Forall (fun d => forall v, d !! key = Some v -> truthy v = true)
         (_cache self) ->
  get key self = (Return (get_spec key self), self).
Proof.
  intros Hall. rewrite get_eq. unfold get_spec, innermost.
  rewrite get_loop_truthy by (apply Forall_reverse; exact Hall).
  destruct (first_containing key (reverse (_cache self))); reflexivity.
Qed.

(** The three reads of the priority example. *)
Example get_priority :
  let self := mkDB ∅ [ {[ "a" := PInt 1 ]}; {[ "b" := PInt 2 ]};
                       {[ "a" := PInt 3 ]} ] in
  get "a" self = (Return (PInt 3), self) /\
  get "b" self = (Return (PInt 2), self) /\
  get "c" self = (Return PNone, self).
Proof. vm_compute. repeat split. Qed.

(** ** Frame lemmas for [begin] and [set] *)

Lemma set_db (key : string) (value : pyval) (self : DatabaseSimulator) :
  db (set key value self).2 = db self.
Proof.
  unfold set, bind, read_cache, write_cache, raise. simpl.
  destruct (nonempty (_cache self)); reflexivity.
Qed.

Lemma call_db (o : op) (self : DatabaseSimulator) :
  db (call o self).2 = db self.
Proof. destruct o; [reflexivity|apply set_db]. Qed.

Lemma calls_db (os : list op) (self : DatabaseSimulator) :
  db (calls os self).2 = db self.
Proof.
  revert self. induction os as [|o os IH]; intros self; [reflexivity|].
  simpl. unfold bind.
  pose proof (call_db o self) as Ho.
  destruct (call o self) as [[u|e] self']; simpl in Ho.
  - rewrite IH. exact Ho.
  - exact Ho.
Qed.

Lemma commit_loop_foldl (d : pydict) (c : list pydict) :
  commit_loop d c = foldl dict_update d c.
Proof. revert d. induction c as [|x c IH]; intros d; simpl; auto. Qed.

(** ** The read priority of [get] *)

(** C1 (the code departs from the claim): a read is claimed to return the
    value of the innermost pending dictionary that contains the key.  With
    the pending dictionaries [[{a: 1}, {a: 0}]] over an empty [db], the
    innermost dictionary containing ["a"] holds [0], and [get("a")] returns
    [1], the value of the older dictionary. *)
Theorem get_innermost_zero_returns_older :
  let self := mkDB ∅ [ {[ "a" := PInt 1 ]}; {[ "a" := PInt 0 ]} ] in
  get "a" self = (Return (PInt 1), self) /\
  get_spec "a" self = PInt 0.
Proof. vm_compute. split; reflexivity. Qed.

(** C3 (the code departs from the claim): a falsy value stored in the
    innermost pending dictionary is claimed to be returned by [get].  On a
    store whose [db] is [{a: '5'}], after [begin()] and [set("a", 0)] the
    call [get("a")] returns ['5'] from [db], not the stored [0]. *)
Theorem get_after_set_zero_returns_db_value :
  let self := mkDB {[ "a" := PStr "5" ]} [] in
  (begin then! set "a" (PInt 0) then! get "a") self
  = (Return (PStr "5"),
     mkDB {[ "a" := PStr "5" ]} [ {[ "a" := PInt 0 ]} ]).
Proof. vm_compute. reflexivity. Qed.

Lemma get_loop_first_truthy (key : string) (visit : list pydict)
    (fallback : pyval) :
  (forall v, first_containing key visit = Some v -> truthy v = true) ->
  default fallback (get_loop key visit)
  = default fallback (first_containing key visit).
Proof.
  induction visit as [|d visit IH]; simpl; [reflexivity|].
  destruct (d !! key) as [v|] eqn:Hk; intros Hfirst.
  - rewrite (dict_get_present _ _ _ Hk), (Hfirst v eq_refl). reflexivity.
  - rewrite (dict_get_absent _ _ Hk). simpl. apply IH, Hfirst.
Qed.

Lemma strip_falsy_lookup (d : pydict) (key : string) :
  strip_falsy d !! key
  = match d !! key with
    | Some v => if truthy v then Some v else None
    | None => None
    end.
Proof.
  unfold strip_falsy.
  destruct (d !! key) as [v|] eqn:Hk.
  - destruct (truthy v) eqn:Hv.
    + apply map_lookup_filter_Some_2; [exact Hk|exact Hv].
    + apply map_lookup_filter_None_2. right. intros w Hw. simpl.
      rewrite Hk in Hw. injection Hw as <-. rewrite Hv. discriminate.
  - apply map_lookup_filter_None_2. left. exact Hk.
Qed.

(** The loop of [get] finds the first dictionary that has the key once
    the entries of falsy value are taken out. *)
Lemma get_loop_strip_falsy (key : string) (visit : list pydict) :
  get_loop key visit = first_containing key (strip_falsy <$> visit).
Proof.
  induction visit as [|d visit IH]; simpl; [reflexivity|].
  rewrite strip_falsy_lookup. unfold dict_get.
  destruct (d !! key) as [v|]; simpl.
  - destruct (truthy v); [reflexivity|exact IH].
  - exact IH.
Qed.

Lemma get_strip_falsy (key : string) (self : DatabaseSimulator) :
  get key self
  = (Return (get_spec key (mkDB (db self) (strip_falsy <$> _cache self))),
     self).
Proof.
  rewrite get_eq. unfold get_spec, innermost. simpl.
  rewrite get_loop_strip_falsy, fmap_reverse.
  destruct (first_containing key (reverse (strip_falsy <$> _cache self)));
    reflexivity.
Qed.

(** C4: a pending dictionary that holds a falsy value under the key is
    read by [get] as if it did not hold the key at all.  The call returns
    what it returns on the store where that entry is deleted, and, when
    the entry is in the innermost dictionary, what it returns on the store
    without that dictionary.  When the dictionary is the newest one that
    has the key, the falsy value is not what [get] finds there: the
    result is read from the older dictionaries and [db], namely the value
    of the newest older dictionary that has the key when that value is
    truthy, and the [db] entry (or [None]) when no older dictionary has
    the key.  In general the result is the one of the reading rule on the
    store with every entry of falsy value taken out of the pending
    dictionaries.  The object is not changed. *)
Theorem get_falsy_entry_as_absent (key : string) (v : pyval)
    (d : pydict) (base : pydict) (older newer : list pydict) :
  d !! key = Some v ->
  truthy v = false ->
  let self := mkDB base (older ++ d :: newer) in
  (get key self).1
  = (get key (mkDB base (older ++ delete key d :: newer))).1 /\
  (get key (mkDB base (older ++ [d]))).1 = (get key (mkDB base older)).1 /\
  (Forall (fun n => n !! key = None) newer ->
   (forall w, innermost key older = Some w -> truthy w = true) ->
   get key self = (Return (get_spec key (mkDB base older)), self)) /\
  get key self
  = (Return (get_spec key (mkDB base (strip_falsy <$> older ++ d :: newer))),
     self).
Proof.
  intros Hk Hv self.
  assert (Hd : truthy (dict_get d key) = false)
    by (rewrite (dict_get_present _ _ _ Hk); exact Hv).
  assert (Hdel : truthy (dict_get (delete key d) key) = false)
    by (rewrite dict_get_absent by apply lookup_delete_eq; reflexivity).
  split; [|split; [|split]].
  - unfold self. rewrite !get_eq. simpl.
    rewrite !reverse_app, !reverse_cons, <- !app_assoc. simpl.
    rewrite !(get_loop_app key (reverse newer)).
    rewrite (get_loop_skip _ _ _ Hd), (get_loop_skip _ _ _ Hdel).
    reflexivity.
  - rewrite !get_eq. simpl.
    rewrite reverse_snoc, (get_loop_skip _ _ _ Hd). reflexivity.
  - intros Hnewer Holder. unfold self. rewrite get_eq. simpl.
    rewrite reverse_app, reverse_cons, <- app_assoc. simpl.
    rewrite get_loop_app.
    rewrite get_loop_absent by (apply Forall_reverse; exact Hnewer).
    rewrite (get_loop_skip _ _ _ Hd).
    unfold innermost in Holder.
    rewrite (get_loop_first_truthy _ _ _ Holder).
    unfold get_spec, innermost. simpl.
    destruct (first_containing key (reverse older)); reflexivity.
  - apply (get_strip_falsy key self).
Qed.

Lemma get_falsy_entry_as_absent_witness :
  let zero : pydict := {[ "k" := PInt 0 ]} in
  let base : pydict := {[ "k" := PInt 7 ]} in
  let five : pydict := {[ "k" := PInt 5 ]} in
  zero !! "k" = Some (PInt 0) /\
  truthy (PInt 0) = false /\
  get "k" (mkDB base ([five] ++ zero :: [∅]))
  = (Return (PInt 5), mkDB base ([five] ++ zero :: [∅])) /\
  get "k" (mkDB base ([] ++ zero :: []))
  = (Return (PInt 7), mkDB base ([] ++ zero :: [])).
Proof.
  intros zero base five.
  assert (Hk : zero !! "k" = Some (PInt 0)) by reflexivity.
  assert (Hv : truthy (PInt 0) = false) by reflexivity.
  split; [exact Hk|]. split; [exact Hv|]. split.
  - refine (proj1 (proj2 (proj2
      (get_falsy_entry_as_absent "k" (PInt 0) zero base [five] [∅] Hk Hv)))
      _ _).
    + repeat constructor.
    + intros w Hw. vm_compute in Hw. injection Hw as <-. reflexivity.
  - refine (proj1 (proj2 (proj2
      (get_falsy_entry_as_absent "k" (PInt 0) zero base [] [] Hk Hv)))
      _ _).
    + constructor.
    + intros w Hw. vm_compute in Hw. discriminate.
Defined.

(** C10: when no pending dictionary contains the key, [get] returns the
    entry of [db] under the key, whatever its truth value, and [None] when
    [db] has no such entry; the object is not changed.  So with [db] equal
    to [{k: 0}] under an empty pending dictionary, [get("k")] is [0]. *)
Theorem get_db_value_even_falsy (key : string) (self : DatabaseSimulator) :
  Forall (fun d => d !! key = None) (_cache self) ->
  get key self = (Return (dict_get (db self) key), self) /\
  (forall v, db self !! key = Some v -> get key self = (Return v, self)).
Proof.
  intros Hall.
  assert (Hget : get key self = (Return (dict_get (db self) key), self)).
  { rewrite get_eq, get_loop_absent by (apply Forall_reverse; exact Hall).
    reflexivity. }
  split; [exact Hget|].
  intros v Hv. rewrite Hget, (dict_get_present _ _ _ Hv). reflexivity.
Qed.

Lemma get_db_value_even_falsy_witness :
  let self := mkDB {[ "k" := PInt 0 ]} [ ∅ ] in
  Forall (fun d : pydict => d !! "k" = None) (_cache self) /\
  get "k" self = (Return (PInt 0), self).
Proof.
  simpl. split.
  - repeat constructor.
  - apply (get_db_value_even_falsy "k" (mkDB {[ "k" := PInt 0 ]} [ ∅ ])).
    + repeat constructor.
    + reflexivity.
Defined.

(** ** [commit] *)

(** C2: with at least one pending dictionary, [commit] returns normally,
    writes the pending dictionaries into [db] from index 0 to the last one,
    and leaves [_cache] empty.  Afterwards a key holds the value of the
    newest pending dictionary that contained it, and its previous [db]
    entry when none did.  From [db = {}] and
    [[{c: 5, e: 1}, {d: 6}, {e: 99}]] the result is
    [db = {c: 5, d: 6, e: 99}] with [_cache = []]. *)
Theorem commit_flattens_whole_stack (self : DatabaseSimulator) :
  _cache self <> [] ->
  (commit self).1 = Return tt /\
  _cache (commit self).2 = [] /\
  db (commit self).2 = foldl dict_update (db self) (_cache self) /\
  (forall k,
     db (commit self).2 !! k
     = match innermost k (_cache self) with
       | Some v => Some v
       | None => db self !! k
       end) /\
  commit (mkDB ∅ [ {[ "c" := PInt 5; "e" := PInt 1 ]};
                   {[ "d" := PInt 6 ]}; {[ "e" := PInt 99 ]} ])
  = (Return tt,
     mkDB {[ "c" := PInt 5; "d" := PInt 6; "e" := PInt 99 ]} []).
Proof.
  intros Hne. rewrite (commit_nonempty _ Hne). simpl.
  split; [reflexivity|]. split; [reflexivity|].
  split; [apply commit_loop_foldl|].
  split; [intros k; apply commit_loop_lookup|].
  vm_compute. reflexivity.
Qed.

Lemma commit_flattens_whole_stack_witness :
  let self := mkDB {[ "e" := PInt 0; "z" := PStr "old" ]}
                   [ {[ "e" := PInt 1 ]}; {[ "e" := PInt 2 ]} ] in
  _cache self <> [] /\
  db (commit self).2 !! "e" = Some (PInt 2) /\
  db (commit self).2 !! "z" = Some (PStr "old").
Proof.
  simpl.
  pose proof (commit_flattens_whole_stack
                (mkDB {[ "e" := PInt 0; "z" := PStr "old" ]}
                      [ {[ "e" := PInt 1 ]}; {[ "e" := PInt 2 ]} ])
                ltac:(discriminate)) as (_ & _ & _ & Hlook & _).
  split; [discriminate|].
  split; rewrite Hlook; reflexivity.
Defined.

(** ** Calls without an active transaction *)

(** C5: on an object whose [_cache] is empty, [set], [commit] and
    [rollback] each raise the no-active-transaction error, which in the
    source is the built-in [Exception] carrying the message
    ["No active transaction"], and the object after the call is the object
    before it: neither [db] nor [_cache] has changed. *)
Theorem no_active_transaction_raises (self : DatabaseSimulator)
    (key : string) (value : pyval) :
  _cache self = [] ->
  set key value self = (Raise (Exception "No active transaction"), self) /\
  commit self = (Raise (Exception "No active transaction"), self) /\
  rollback self = (Raise (Exception "No active transaction"), self).
Proof.
  destruct self as [d c]. simpl. intros ->. repeat split.
Qed.

Lemma no_active_transaction_raises_witness :
  let self := mkDB {[ "a" := PStr "5" ]} [] in
  _cache self = [] /\
  set "a" (PInt 1) self = (Raise (Exception "No active transaction"), self) /\
  commit self = (Raise (Exception "No active transaction"), self) /\
  rollback self = (Raise (Exception "No active transaction"), self).
Proof.
  simpl. split; [reflexivity|].
  apply (no_active_transaction_raises (mkDB {[ "a" := PStr "5" ]} [])).
  reflexivity.
Defined.

(** ** [rollback] *)

(** C6: with at least one pending dictionary, [rollback] returns normally
    and removes the last dictionary of [_cache] and nothing else: the list
    before the call is the list after it followed by one dictionary, so
    its length goes down by one, the older dictionaries keep their
    contents and order, and [db] is unchanged.  From
    [[{d: 'yep'}, {d: 'nope'}]] the list after the call is
    [[{d: 'yep'}]]. *)
Theorem rollback_drops_innermost_only (self : DatabaseSimulator) :
  _cache self <> [] ->
  (rollback self).1 = Return tt /\
  db (rollback self).2 = db self /\
  (exists last, _cache self = _cache (rollback self).2 ++ [last]) /\
  S (length (_cache (rollback self).2)) = length (_cache self) /\
  (forall d, rollback (mkDB d [ {[ "d" := PStr "yep" ]};
                                {[ "d" := PStr "nope" ]} ])
             = (Return tt, mkDB d [ {[ "d" := PStr "yep" ]} ])).
Proof.
  intros Hne. destruct self as [d c]. simpl in Hne.
  destruct (snoc_of_nonempty c Hne) as (older & last & ->).
  rewrite rollback_snoc. simpl. repeat split.
  - exists last. reflexivity.
  - rewrite length_app. simpl. lia.
Qed.

Lemma rollback_drops_innermost_only_witness :
  let self := mkDB {[ "a" := PInt 1 ]}
                   [ {[ "d" := PStr "yep" ]}; {[ "d" := PStr "nope" ]} ] in
  _cache self <> [] /\ db (rollback self).2 = db self.
Proof.
  intros self.
  assert (Hne : _cache self <> []) by discriminate.
  split; [exact Hne|].
  exact (proj1 (proj2 (rollback_drops_innermost_only self Hne))).
Defined.

(** ** [set], [begin] and [count] *)

(** C7: with at least one pending dictionary, [set] returns normally and
    writes the entry into the last dictionary of [_cache] only: [db] and
    the older dictionaries are as before.  And whatever sequence of
    [begin] and [set] calls is made, [db], and with it the result of
    [count], stays what it was. *)
Theorem set_writes_innermost_only (self : DatabaseSimulator)
    (key : string) (value : pyval) :
  (_cache self <> [] ->
   exists older last,
     _cache self = older ++ [last] /\
     set key value self
     = (Return tt, mkDB (db self) (older ++ [<[key:=value]> last]))) /\
  (forall os : list op,
     db (calls os self).2 = db self /\
     (count (calls os self).2).1 = (count self).1).
Proof.
  split.
  - intros Hne. destruct self as [d c]. simpl in Hne.
    destruct (snoc_of_nonempty c Hne) as (older & last & ->).
    exists older, last. split; [reflexivity|]. apply set_snoc.
  - intros os. split; [apply calls_db|].
    rewrite !count_eq. simpl. rewrite calls_db. reflexivity.
Qed.

Lemma set_writes_innermost_only_witness :
  let self := mkDB {[ "a" := PStr "5"; "b" := PInt 19 ]}
                   [ {[ "c" := PInt 5; "e" := PInt 1 ]};
                     {[ "d" := PInt 6 ]}; {[ "e" := PInt 7 ]} ] in
  _cache self <> [] /\
  exists older last,
    _cache self = older ++ [last] /\
    set "e" (PInt 99) self
    = (Return tt, mkDB (db self) (older ++ [<["e":=PInt 99]> last])).
Proof.
  intros self.
  assert (Hne : _cache self <> []) by discriminate.
  split; [exact Hne|].
  exact (proj1 (set_writes_innermost_only self "e" (PInt 99)) Hne).
Defined.

(** The write of the test scenario: only the last dictionary changes. *)
Example set_latest_only :
  let self := mkDB {[ "a" := PStr "5"; "b" := PInt 19 ]}
                   [ {[ "c" := PInt 5; "e" := PInt 1 ]};
                     {[ "d" := PInt 6 ]}; {[ "e" := PInt 7 ]} ] in
  (set "e" (PInt 99) then! count) self
  = (Return 2%nat,
     mkDB {[ "a" := PStr "5"; "b" := PInt 19 ]}
          [ {[ "c" := PInt 5; "e" := PInt 1 ]};
            {[ "d" := PInt 6 ]}; {[ "e" := PInt 99 ]} ]).
Proof. vm_compute. reflexivity. Qed.

(** C8: [begin] always returns normally, and its whole effect is one new
    empty dictionary at the end of [_cache]: the length goes up by one,
    the dictionaries already there and [db] are as before.  [count]
    always returns normally, leaves the object as it is, and its result is
    the number of entries of [db]; entries of pending dictionaries are not
    counted. *)
Theorem begin_pushes_count_reads_db (self : DatabaseSimulator) :
  begin self = (Return tt, mkDB (db self) (_cache self ++ [∅])) /\
  length (_cache (begin self).2) = S (length (_cache self)) /\
  count self = (Return (size (db self)), self) /\
  (forall c, (count (mkDB (db self) c)).1 = (count self).1) /\
  count (mkDB {[ "a" := PStr "5"; "b" := PInt 19 ]}
              [ {[ "c" := PInt 5; "e" := PInt 1 ]}; {[ "d" := PInt 6 ]} ])
  = (Return 2%nat,
     mkDB {[ "a" := PStr "5"; "b" := PInt 19 ]}
          [ {[ "c" := PInt 5; "e" := PInt 1 ]}; {[ "d" := PInt 6 ]} ]).
Proof.
  split; [reflexivity|].
  split; [rewrite begin_eq; simpl; rewrite length_app; simpl; lia|].
  split; [reflexivity|].
  split; [reflexivity|].
  vm_compute. reflexivity.
Qed.

(** ** [begin] followed by [rollback] *)

(** C9: [begin()] immediately followed by [rollback()] returns normally
    and gives back the object as it was: the same [db] and the same list
    of pending dictionaries, in the same order. *)
Theorem begin_rollback_identity (self : DatabaseSimulator) :
  (begin then! rollback) self = (Return tt, self).
Proof.
  unfold bind. rewrite begin_eq, rollback_snoc, record_eta. reflexivity.
Qed.

(** ** Reads and writes inside a transaction *)

Lemma get_loop_some_truthy (key : string) (visit : list pydict) (v : pyval) :
  get_loop key visit = Some v -> truthy v = true.
Proof.
  induction visit as [|d visit IH]; simpl; [discriminate|].
  destruct (truthy (dict_get d key)) eqn:Hd; [|exact IH].
  intros [= <-]. exact Hd.
Qed.

Lemma dict_get_insert_eq (d : pydict) (key : string) (value : pyval) :
  dict_get (<[key:=value]> d) key = value.
Proof. unfold dict_get. rewrite lookup_insert_eq. reflexivity. Qed.

Lemma dict_get_insert_ne (d : pydict) (key key' : string) (value : pyval) :
  key <> key' -> dict_get (<[key:=value]> d) key' = dict_get d key'.
Proof. intros Hne. unfold dict_get. rewrite lookup_insert_ne by exact Hne. reflexivity. Qed.

(** A state is either without a pending dictionary or has a last one. *)
Lemma cache_cases (self : DatabaseSimulator) :
  (exists d, self = mkDB d []) \/
  (exists d older last, self = mkDB d (older ++ [last])).
Proof.
  destruct self as [d c].
  destruct c as [|x c] using rev_ind; [left|right]; eauto.
Qed.

(** X1: inside a transaction, a truthy value that was just [set] is what
    [get] returns for that key. *)
Theorem get_after_set_truthy (self : DatabaseSimulator)
    (key : string) (value : pyval) :
  _cache self <> [] ->
  truthy value = true ->
  (set key value then! get key) self
  = (Return value, (set key value self).2).
Proof.
  intros Hne Hv.
  destruct (cache_cases self) as [(d & ->)|(d & older & last & ->)];
    [simpl in Hne; congruence|].
  unfold bind. rewrite set_snoc. simpl. rewrite get_eq. simpl.
  rewrite reverse_snoc. simpl. rewrite dict_get_insert_eq, Hv. reflexivity.
Qed.

Lemma get_after_set_truthy_witness :
  let self := mkDB {[ "a" := PStr "5" ]} [ {[ "a" := PInt 100 ]} ] in
  _cache self <> [] /\
  truthy (PInt 101) = true /\
  (set "a" (PInt 101) then! get "a") self
  = (Return (PInt 101), (set "a" (PInt 101) self).2).
Proof.
  intros self.
  assert (Hne : _cache self <> []) by discriminate.
  split; [exact Hne|]. split; [reflexivity|].
  exact (get_after_set_truthy self "a" (PInt 101) Hne eq_refl).
Defined.

(** X2: a [set] on one key, whether it succeeds or raises, does not change
    what [get] returns for any other key. *)
Theorem get_other_key_after_set (self : DatabaseSimulator)
    (key key' : string) (value : pyval) :
  key <> key' ->
  (get key' (set key value self).2).1 = (get key' self).1.
Proof.
  intros Hne.
  destruct (cache_cases self) as [(d & ->)|(d & older & last & ->)];
    [reflexivity|].
  rewrite set_snoc, !get_eq. simpl. rewrite !reverse_snoc. simpl.
  rewrite (dict_get_insert_ne _ _ _ _ Hne). reflexivity.
Qed.

Lemma get_other_key_after_set_witness :
  let self := mkDB {[ "b" := PInt 19 ]} [ {[ "b" := PInt 20 ]} ] in
  "a" <> "b" /\
  (get "b" (set "a" (PInt 1) self).2).1 = (get "b" self).1.
Proof.
  intros self.
  assert (Hne : "a" <> "b") by discriminate.
  split; [exact Hne|].
  exact (get_other_key_after_set self "a" "b" (PInt 1) Hne).
Defined.

(** X3: a falsy result of [get] never comes from a pending dictionary: it
    is the entry of [db] under the key, or [None] for a key [db] does not
    have. *)
Theorem get_falsy_result_is_from_db (self : DatabaseSimulator)
    (key : string) (v : pyval) :
  (get key self).1 = Return v ->
  truthy v = false ->
  v = dict_get (db self) key.
Proof.
  rewrite get_eq. simpl. intros [= <-] Hv.
  destruct (get_loop key (reverse (_cache self))) as [w|] eqn:Hloop;
    [|reflexivity].
  simpl in Hv. rewrite (get_loop_some_truthy _ _ _ Hloop) in Hv.
  discriminate.
Qed.

Lemma get_falsy_result_is_from_db_witness :
  let self := mkDB {[ "k" := PStr "" ]} [ {[ "k" := PInt 0 ]} ] in
  (get "k" self).1 = Return (PStr "") /\
  truthy (PStr "") = false /\
  PStr "" = dict_get (db self) "k".
Proof.
  intros self.
  assert (Hget : (get "k" self).1 = Return (PStr "")) by reflexivity.
  split; [exact Hget|]. split; [reflexivity|].
  exact (get_falsy_result_is_from_db self "k" (PStr "") Hget eq_refl).
Defined.

(** X4: two [set] calls on the same key leave the object as the second one
    alone would, with the same outcome. *)
Theorem set_twice_same_key (self : DatabaseSimulator)
    (key : string) (value1 value2 : pyval) :
  (set key value1 then! set key value2) self = set key value2 self.
Proof.
  destruct (cache_cases self) as [(d & ->)|(d & older & last & ->)];
    [reflexivity|].
  unfold bind. rewrite !set_snoc, insert_insert_eq. reflexivity.
Qed.

(** X5: [set] calls on two different keys can be made in either order. *)
Theorem set_different_keys_commute (self : DatabaseSimulator)
    (key1 key2 : string) (value1 value2 : pyval) :
  key1 <> key2 ->
  (set key1 value1 then! set key2 value2) self
  = (set key2 value2 then! set key1 value1) self.
Proof.
  intros Hne.
  destruct (cache_cases self) as [(d & ->)|(d & older & last & ->)];
    [reflexivity|].
  unfold bind. rewrite !set_snoc.
  rewrite (insert_insert_ne last key2 key1) by congruence. reflexivity.
Qed.

Lemma set_different_keys_commute_witness :
  let self := mkDB ∅ [ {[ "c" := PInt 5 ]} ] in
  "d" <> "e" /\
  (set "d" (PInt 6) then! set "e" (PInt 7)) self
  = (set "e" (PInt 7) then! set "d" (PInt 6)) self.
Proof.
  intros self.
  assert (Hne : "d" <> "e") by discriminate.
  split; [exact Hne|].
  exact (set_different_keys_commute self "d" "e" (PInt 6) (PInt 7) Hne).
Defined.

(** X6: a [begin] does not change what [get] returns. *)
Theorem get_after_begin (self : DatabaseSimulator) (key : string) :
  (get key (begin self).2).1 = (get key self).1.
Proof.
  rewrite begin_eq, !get_eq. simpl. rewrite reverse_snoc. reflexivity.
Qed.

(** ** Opening and closing transactions *)

(** A read or a [set] inside a transaction returns normally and keeps
    [db] and the older pending dictionaries. *)
Lemma invoke_read_or_set (m : method) (d : pydict)
    (older : list pydict) (last : pydict) :
  is_read_or_set m = true ->
  exists v last',
    invoke m (mkDB d (older ++ [last]))
    = (Return v, mkDB d (older ++ [last'])).
Proof.
  destruct m as [| |key|key value| |]; simpl; try discriminate; intros _.
  - eexists _, last. reflexivity.
  - eexists _, last. apply get_eq.
  - eexists PNone, _. unfold bind. rewrite set_snoc. reflexivity.
Qed.

Lemma invokes_read_or_set (ms : list method) (d : pydict)
    (older : list pydict) (last : pydict) :
  forallb is_read_or_set ms = true ->
  exists last',
    invokes ms (mkDB d (older ++ [last]))
    = (Return tt, mkDB d (older ++ [last'])).
Proof.
  revert last. induction ms as [|m ms IH]; intros last; simpl.
  - intros _. exists last. reflexivity.
  - intros [Hm Hms]%andb_prop.
    destruct (invoke_read_or_set m d older last Hm) as (v & last1 & Hinv).
    destruct (IH last1 Hms) as (last2 & Hrest).
    exists last2. unfold bind. rewrite Hinv. exact Hrest.
Qed.

(** X7: [begin], then any calls of [set], [get] and [count], then
    [rollback], returns normally and gives back the object as it was
    before the [begin]: a rollback discards every write of its
    transaction. *)
Theorem rollback_discards_transaction (self : DatabaseSimulator)
    (ms : list method) :
  forallb is_read_or_set ms = true ->
  (begin then! invokes ms then! rollback) self = (Return tt, self).
Proof.
  intros Hms. unfold bind at 1. rewrite begin_eq.
  destruct (invokes_read_or_set ms (db self) (_cache self) ∅ Hms)
    as (last' & Hrun).
  unfold bind. rewrite Hrun, rollback_snoc, record_eta. reflexivity.
Qed.

Lemma rollback_discards_transaction_witness :
  let self := mkDB {[ "d" := PInt 6 ]} [ {[ "d" := PStr "yep" ]} ] in
  let ms := [ MSet "d" (PStr "nope"); MGet "d"; MCount; MSet "z" PNone ] in
  forallb is_read_or_set ms = true /\
  (begin then! invokes ms then! rollback) self = (Return tt, self).
Proof.
  intros self ms.
  assert (Hms : forallb is_read_or_set ms = true) by reflexivity.
  split; [exact Hms|].
  exact (rollback_discards_transaction self ms Hms).
Defined.

Lemma times_rollback_all (d : pydict) (c : list pydict) :
  times (length c) rollback (mkDB d c) = (Return tt, mkDB d []).
Proof.
  induction c as [|x c IH] using rev_ind; [reflexivity|].
  rewrite length_app, Nat.add_1_r. simpl. unfold bind.
  rewrite rollback_snoc. exact IH.
Qed.

Lemma times_rollback_one_more (d : pydict) (c : list pydict) :
  times (S (length c)) rollback (mkDB d c)
  = (Raise (Exception "No active transaction"), mkDB d []).
Proof.
  induction c as [|x c IH] using rev_ind; [reflexivity|].
  rewrite length_app, Nat.add_1_r.
  change (times (S (S (length c))) rollback)
    with (rollback then! times (S (length c)) rollback).
  unfold bind at 1. rewrite rollback_snoc. exact IH.
Qed.

(** X8: as many [rollback] calls as there are pending dictionaries all
    return normally and leave [_cache] empty and [db] as it was; one more
    call raises "No active transaction". *)
Theorem rollback_every_level (self : DatabaseSimulator) :
  times (length (_cache self)) rollback self
  = (Return tt, mkDB (db self) []) /\
  times (S (length (_cache self))) rollback self
  = (Raise (Exception "No active transaction"), mkDB (db self) []).
Proof.
  destruct self as [d c]. simpl.
  split; [apply times_rollback_all|apply times_rollback_one_more].
Qed.

(** X9: a successful [commit] ends every transaction: a [commit],
    [rollback] or [set] that follows it raises "No active transaction",
    on the object as the first [commit] left it. *)
Theorem nothing_active_after_commit (self : DatabaseSimulator)
    (key : string) (value : pyval) :
  _cache self <> [] ->
  let after := mkDB (commit_loop (db self) (_cache self)) [] in
  (commit then! commit) self
  = (Raise (Exception "No active transaction"), after) /\
  (commit then! rollback) self
  = (Raise (Exception "No active transaction"), after) /\
  (commit then! set key value) self
  = (Raise (Exception "No active transaction"), after).
Proof.
  intros Hne after. unfold bind. rewrite (commit_nonempty _ Hne).
  repeat split.
Qed.

Lemma nothing_active_after_commit_witness :
  let self := mkDB ∅ [ {[ "a" := PStr "5" ]}; {[ "b" := PInt 19 ]}; ∅ ] in
  _cache self <> [] /\
  (commit then! commit) self
  = (Raise (Exception "No active transaction"),
     mkDB {[ "a" := PStr "5"; "b" := PInt 19 ]} []).
Proof.
  intros self.
  assert (Hne : _cache self <> []) by discriminate.
  split; [exact Hne|].
  exact (proj1 (nothing_active_after_commit self "a" PNone Hne)).
Defined.

(** ** What [commit] leaves in [db] *)

Lemma commit_eq (self : DatabaseSimulator) :
  (commit self).2
  = if nonempty (_cache self)
    then mkDB (commit_loop (db self) (_cache self)) []
    else self.
Proof.
  unfold commit, bind, read_cache, read_db, write_db, write_cache, raise.
  simpl. destruct (nonempty (_cache self)); reflexivity.
Qed.

Lemma db_after_commit (self : DatabaseSimulator) :
  db (commit self).2 = commit_loop (db self) (_cache self).
Proof.
  rewrite commit_eq. destruct self as [d [|x c]]; reflexivity.
Qed.

Lemma commit_loop_dom (d : pydict) (c : list pydict) :
  dom (commit_loop d c) = dom d ∪ ⋃ (dom <$> c).
Proof.
  revert d. induction c as [|x c IH]; intros d; simpl.
  - set_solver.
  - rewrite IH. unfold dict_update. rewrite dom_union_L. set_solver.
Qed.

Lemma commit_loop_merge (d : pydict) (c : list pydict) :
  commit_loop d c = commit_loop ∅ c ∪ d.
Proof.
  induction c as [|x c IH] using rev_ind; simpl.
  - rewrite (left_id_L ∅ (∪)). reflexivity.
  - rewrite !commit_loop_snoc. unfold dict_update.
    rewrite IH, (assoc_L (∪)). reflexivity.
Qed.

Lemma commit_loop_held (d : pydict) (c : list pydict) :
  Forall (fun cache => cache ⊆ d) c -> commit_loop d c = d.
Proof.
  induction 1 as [|x c Hx _ IH]; simpl; [reflexivity|].
  unfold dict_update. rewrite (map_subseteq_union _ _ Hx). exact IH.
Qed.

(** X10: after [commit], [get] returns for every key the value of the
    innermost pending dictionary that contained the key before the
    [commit], falsy or not, and the previous [db] entry when none did.
    (When [commit] raises, the object is unchanged and has no pending
    dictionary, and [get] returns the [db] entry.) *)
Theorem get_after_commit (self : DatabaseSimulator) (key : string) :
  get key (commit self).2 = (Return (get_spec key self), (commit self).2).
Proof.
  rewrite get_eq. f_equal. f_equal.
  assert (Hc : _cache (commit self).2 = []).
  { rewrite commit_eq. destruct self as [d [|x c]]; reflexivity. }
  rewrite Hc, db_after_commit. simpl.
  unfold dict_get, get_spec. rewrite commit_loop_lookup.
  destruct (innermost key (_cache self)); reflexivity.
Qed.

(** X11: [commit] never removes a key from [db]: the keys of [db] after
    the call are its keys before together with the keys of all pending
    dictionaries, so the result of [count] does not go down. *)
Theorem commit_keeps_keys (self : DatabaseSimulator) :
  dom (db (commit self).2) = dom (db self) ∪ ⋃ (dom <$> _cache self) /\
  (size (db self) <= size (db (commit self).2))%nat.
Proof.
  rewrite db_after_commit.
  assert (Hdom := commit_loop_dom (db self) (_cache self)).
  split; [exact Hdom|].
  rewrite <- !size_dom. apply subseteq_size. rewrite Hdom. set_solver.
Qed.

(** X12: nesting does not matter to [commit]: committing a stack of
    pending dictionaries gives the same outcome and object as committing
    the single dictionary obtained by merging them, oldest first. *)
Theorem commit_nested_as_one (d : pydict) (c : list pydict) :
  c <> [] ->
  commit (mkDB d c) = commit (mkDB d [commit_loop ∅ c]).
Proof.
  intros Hne.
  rewrite (commit_nonempty (mkDB d c)) by exact Hne.
  rewrite (commit_nonempty (mkDB d [_])) by discriminate.
  simpl. unfold dict_update. rewrite (commit_loop_merge d c). reflexivity.
Qed.

Lemma commit_nested_as_one_witness :
  let c : list pydict :=
    [ {[ "c" := PInt 5; "e" := PInt 1 ]}; {[ "d" := PInt 6 ]};
      {[ "e" := PInt 99 ]} ] in
  c <> [] /\
  commit (mkDB {[ "e" := PInt 0 ]} c)
  = commit (mkDB {[ "e" := PInt 0 ]} [commit_loop ∅ c]).
Proof.
  intros c.
  assert (Hne : c <> []) by discriminate.
  split; [exact Hne|].
  exact (commit_nested_as_one {[ "e" := PInt 0 ]} c Hne).
Defined.

(** X13: when every entry of every pending dictionary is already in [db]
    with the same value (in particular when all of them are empty),
    [commit] leaves [db] as it was and only empties [_cache]. *)
Theorem commit_of_held_entries (self : DatabaseSimulator) :
  _cache self <> [] ->
  Forall (fun cache => cache ⊆ db self) (_cache self) ->
  commit self = (Return tt, mkDB (db self) []).
Proof.
  intros Hne Hall.
  rewrite (commit_nonempty _ Hne), (commit_loop_held _ _ Hall).
  reflexivity.
Qed.

Lemma commit_of_held_entries_witness :
  let self := mkDB {[ "a" := PStr "5"; "b" := PInt 19 ]}
                   [ ∅; {[ "b" := PInt 19 ]} ] in
  _cache self <> [] /\
  Forall (fun cache => cache ⊆ db self) (_cache self) /\
  commit self = (Return tt, mkDB (db self) []).
Proof.
  intros self.
  assert (Hne : _cache self <> []) by discriminate.
  assert (Hall : Forall (fun cache => cache ⊆ db self) (_cache self)).
  { repeat constructor.
    - apply map_empty_subseteq.
    - apply map_singleton_subseteq_l. reflexivity. }
  split; [exact Hne|]. split; [exact Hall|].
  exact (commit_of_held_entries self Hne Hall).
Defined.

(** ** Exceptions and the committed table, over all methods *)

(** X14: on calls whose keys are strings and whose values are [None],
    [bool], [int] or [str] (keys that can be hashed, values whose truth
    value can be taken), whenever a method call raises, the exception is
    "No active transaction", the call was a [set], [commit] or [rollback]
    on an object without a pending dictionary, and the object is
    unchanged.  So on such calls [begin], [count] and [get] do not raise,
    and inside a transaction no method does. *)
Theorem invoke_raises_only_without_transaction (m : method)
    (self : DatabaseSimulator) (e : exn) :
  (invoke m self).1 = Raise e ->
  e = Exception "No active transaction" /\
  (invoke m self).2 = self /\
  _cache self = [] /\
  ((exists key value, m = MSet key value) \/ m = MCommit \/ m = MRollback).
Proof.
  destruct (cache_cases self) as [(d & ->)|(d & older & last & ->)].
  - destruct m as [| |key|key value| |]; simpl;
      try (rewrite get_eq; simpl); try discriminate;
      intros [= <-]; repeat split; eauto.
  - destruct m as [| |key|key value| |]; simpl; unfold bind;
      rewrite ?get_eq, ?set_snoc, ?rollback_snoc; simpl; try discriminate.
    rewrite commit_nonempty by (simpl; apply nonempty_true, nonempty_snoc).
    discriminate.
Qed.

Lemma invoke_raises_only_without_transaction_witness :
  let e := Exception "No active transaction" in
  (invoke MRollback __init__).1 = Raise e /\
  (invoke MRollback __init__).2 = __init__ /\
  _cache __init__ = [].
Proof.
  intros e.
  assert (H : (invoke MRollback __init__).1 = Raise e) by reflexivity.
  split; [exact H|].
  destruct (invoke_raises_only_without_transaction MRollback __init__ e H)
    as (_ & Hsame & Hempty & _).
  split; [exact Hsame|exact Hempty].
Defined.

Lemma invoke_db (m : method) (self : DatabaseSimulator) :
  is_commit m = false -> db (invoke m self).2 = db self.
Proof.
  destruct m as [| |key|key value| |]; simpl; try discriminate; intros _.
  - reflexivity.
  - reflexivity.
  - rewrite get_eq. reflexivity.
  - unfold bind. pose proof (set_db key value self) as Hs.
    destruct (set key value self) as [[u|e] self']; exact Hs.
  - destruct (cache_cases self) as [(d & ->)|(d & older & last & ->)];
      [reflexivity|].
    unfold bind. rewrite rollback_snoc. reflexivity.
Qed.

(** X15: only [commit] writes to [db]: over any sequence of calls without
    a [commit] (the sequence ends at the first exception, if there is
    one), [db] and the result of [count] stay what they were. *)
Theorem db_changes_only_by_commit (ms : list method)
    (self : DatabaseSimulator) :
  forallb (fun m => negb (is_commit m)) ms = true ->
  db (invokes ms self).2 = db self /\
  (count (invokes ms self).2).1 = (count self).1.
Proof.
  intros Hms.
  assert (Hdb : db (invokes ms self).2 = db self).
  { revert self. induction ms as [|m ms IH]; intros self; [reflexivity|].
    simpl in Hms. apply andb_prop in Hms as [Hm Hrest].
    apply negb_true_iff in Hm.
    simpl. unfold bind. pose proof (invoke_db m self Hm) as Hone.
    destruct (invoke m self) as [[v|e] self']; simpl in Hone.
    - rewrite (IH Hrest). exact Hone.
    - exact Hone. }
  split; [exact Hdb|].
  rewrite !count_eq. simpl. rewrite Hdb. reflexivity.
Qed.

Lemma db_changes_only_by_commit_witness :
  let self := mkDB {[ "a" := PStr "5" ]} [] in
  let ms := [ MBegin; MSet "a" (PInt 100); MBegin; MSet "b" (PInt 1);
              MGet "a"; MRollback; MCount; MRollback; MRollback ] in
  forallb (fun m => negb (is_commit m)) ms = true /\
  db (invokes ms self).2 = db self.
Proof.
  intros self ms.
  assert (Hms : forallb (fun m => negb (is_commit m)) ms = true)
    by reflexivity.
  split; [exact Hms|].
  exact (proj1 (db_changes_only_by_commit ms self Hms)).
Defined.

(** ** When [get] follows its docstring *)

(** X16: [get] returns what its docstring says (the value of the newest
    pending dictionary that has the key, else the [db] entry, else
    [None]) whenever the value held by the newest pending dictionary that
    has the key is truthy, or no pending dictionary has the key. *)
Theorem get_follows_docstring (key : string) (self : DatabaseSimulator) :
  (forall v, innermost key (_cache self) = Some v -> truthy v = true) ->
  get key self = (Return (get_spec key self), self).
Proof.
  unfold innermost. intros Hin.
  rewrite get_eq, (get_loop_first_truthy _ _ _ Hin).
  unfold get_spec, innermost.
  destruct (first_containing key (reverse (_cache self))); reflexivity.
Qed.

Lemma get_follows_docstring_witness :
  let self := mkDB {[ "a" := PStr "5" ]}
                   [ {[ "a" := PInt 0 ]}; {[ "a" := PInt 101 ]}; ∅ ] in
  (forall v, innermost "a" (_cache self) = Some v -> truthy v = true) /\
  get "a" self = (Return (PInt 101), self).
Proof.
  intros self.
  assert (Hin : forall v,
             innermost "a" (_cache self) = Some v -> truthy v = true).
  { intros v Hv. vm_compute in Hv. injection Hv as <-. reflexivity. }
  split; [exact Hin|].
  exact (get_follows_docstring "a" self Hin).
Defined.

(** ** The test function *)

(** X17: [test_DatabaseSimulator] runs to its end: no [assert] of it
    fails and no method call in it raises.  At the end [db1.db] is
    [{a: 101, b: 19, c: 5, d: 6, e: 99}] and [db1._cache] is
    [[{d: 'yep'}]]. *)
Theorem test_DatabaseSimulator_passes :
  test_DatabaseSimulator
  = inr (mkDB {[ "a" := PInt 101; "b" := PInt 19; "c" := PInt 5;
                 "d" := PInt 6; "e" := PInt 99 ]}
              [ {[ "d" := PStr "yep" ]} ]).
Proof. vm_compute. reflexivity. Qed.
